(** * Zibal payment callback proxy: a shallow embedding of [main.py]

    The development follows the source file top to bottom:

    - the Python values the handler manipulates (JSON documents, [str],
      [int]) and the few built-ins it applies to them;
    - [hashlib.sha256] and [hmac.new(...).hexdigest()], written out from
      FIPS 180-4 and RFC 2104 on 32-bit words held in [Z];
    - [create_signature];
    - the coroutine [zibal_callback], as a program over the three effects
      it performs (logging, [client.post], [datetime.utcnow]) with Python's
      [try]/[except], run against an arbitrary environment.

    A Python [str] is represented by its UTF-8 encoding, one [ascii] per
    byte, so that [s.encode()] is the list of its bytes and concatenation
    of strings is concatenation of encodings. *)

From Stdlib Require Import ZArith List Bool Lia.
From Stdlib Require Import Strings.String Strings.Ascii Strings.Byte.
From Stdlib Require Import Numbers.DecimalString Numbers.DecimalZ.
From Stdlib Require Import Floats.PrimFloat Numbers.Cyclic.Int63.Uint63.
Import ListNotations.

Local Open Scope Z_scope.

(* ================================================================= *)
(** ** hashlib.sha256 *)

Module SHA256.

(** A word is an integer in [0, 2^32); every operation that can leave
    that range wraps around explicitly. *)
Definition wrap32 (x : Z) : Z := x mod 2 ^ 32.
Definition add32 (x y : Z) : Z := wrap32 (x + y).
Definition not32 (x : Z) : Z := wrap32 (Z.lnot x).
Definition shr (n x : Z) : Z := Z.shiftr x n.
Definition rotr (n x : Z) : Z :=
  Z.lor (Z.shiftr x n) (wrap32 (Z.shiftl x (32 - n))).

Definition Ch (x y z : Z) : Z := Z.lxor (Z.land x y) (Z.land (not32 x) z).
Definition Maj (x y z : Z) : Z :=
  Z.lxor (Z.lxor (Z.land x y) (Z.land x z)) (Z.land y z).
Definition Sigma0 (x : Z) : Z := Z.lxor (Z.lxor (rotr 2 x) (rotr 13 x)) (rotr 22 x).
Definition Sigma1 (x : Z) : Z := Z.lxor (Z.lxor (rotr 6 x) (rotr 11 x)) (rotr 25 x).
Definition sigma0 (x : Z) : Z := Z.lxor (Z.lxor (rotr 7 x) (rotr 18 x)) (shr 3 x).
Definition sigma1 (x : Z) : Z := Z.lxor (Z.lxor (rotr 17 x) (rotr 19 x)) (shr 10 x).

(** The round constants are the first 32 bits of the fractional parts of
    the cube roots of the first 64 primes.  [cbrt_bits n x r] settles the
    [n] low bits of the integer cube root of [x], the higher ones being
    those of [r]. *)
Fixpoint cbrt_bits (n : nat) (x r : Z) : Z :=
  match n with
  | O => r
  | S n' =>
      let r' := r + 2 ^ Z.of_nat n' in
      cbrt_bits n' x (if r' * r' * r' <=? x then r' else r)
  end.

Definition primes : list Z :=
  [ 2; 3; 5; 7; 11; 13; 17; 19; 23; 29; 31; 37; 41; 43; 47; 53;
    59; 61; 67; 71; 73; 79; 83; 89; 97; 101; 103; 107; 109; 113; 127; 131;
    137; 139; 149; 151; 157; 163; 167; 173; 179; 181; 191; 193; 197; 199;
    211; 223; 227; 229; 233; 239; 241; 251; 257; 263; 269; 271; 277; 281;
    283; 293; 307; 311 ].

Definition K : list Z :=
  map (fun p => wrap32 (cbrt_bits 36 (p * 2 ^ 96) 0)) primes.

(** The eight working variables [a..h], also the chaining value. *)
Record state : Type := State
  { sa : Z; sb : Z; sc : Z; sd : Z; se : Z; sf : Z; sg : Z; sh : Z }.

Definition H0 : state :=
  State 0x6a09e667 0xbb67ae85 0x3c6ef372 0xa54ff53a
        0x510e527f 0x9b05688c 0x1f83d9ab 0x5be0cd19.

Definition byte_val (b : byte) : Z := Z.of_N (Byte.to_N b).

Definition byte_of_Z (z : Z) : byte :=
  match Byte.of_N (Z.to_N (z mod 256)) with
  | Some b => b
  | None => x00
  end.

(** Big-endian packing of four bytes, and its inverse on a word. *)
Definition word_of_bytes (bs : list byte) : Z :=
  fold_left (fun acc b => acc * 256 + byte_val b) bs 0.

Definition bytes_of_word (x : Z) : list byte :=
  [ byte_of_Z (Z.shiftr x 24); byte_of_Z (Z.shiftr x 16);
    byte_of_Z (Z.shiftr x 8); byte_of_Z x ].

(** The 64-bit big-endian length field that closes the padding. *)
Definition bytes_of_len64 (x : Z) : list byte :=
  map (fun k => byte_of_Z (Z.shiftr x (8 * k))) [7; 6; 5; 4; 3; 2; 1; 0].

(** Padding: one [0x80], the least number of zero bytes that brings the
    length to 56 modulo 64, then the bit length of the message. *)
Definition pad (msg : list byte) : list byte :=
  let n := Z.of_nat (List.length msg) in
  let zeros := Z.to_nat ((55 - n) mod 64) in
  msg ++ x80 :: repeat x00 zeros ++ bytes_of_len64 (8 * n mod 2 ^ 64).

(** [chunks n fuel l] cuts [l] in consecutive pieces of [n] elements. *)
Fixpoint chunks {A : Type} (n fuel : nat) (l : list A) : list (list A) :=
  match fuel with
  | O => []
  | S fuel' =>
      match l with
      | [] => []
      | _ => firstn n l :: chunks n fuel' (skipn n l)
      end
  end.

Definition words_of_block (blk : list byte) : list Z :=
  map word_of_bytes (chunks 4 16 blk).

(** Message schedule.  [rw] holds the words computed so far, most
    recent first, so that [W(t-2)], [W(t-7)], [W(t-15)] and [W(t-16)]
    sit at fixed offsets. *)
Fixpoint extend (n : nat) (rw : list Z) : list Z :=
  match n with
  | O => rw
  | S n' =>
      let wt := add32 (add32 (sigma1 (nth 1 rw 0)) (nth 6 rw 0))
                      (add32 (sigma0 (nth 14 rw 0)) (nth 15 rw 0)) in
      extend n' (wt :: rw)
  end.

Definition schedule (blk : list byte) : list Z :=
  rev (extend 48 (rev (words_of_block blk))).

Definition round (s : state) (kw : Z * Z) : state :=
  let (k, w) := kw in
  let t1 := add32 (add32 (add32 (sh s) (Sigma1 (se s)))
                         (add32 (Ch (se s) (sf s) (sg s)) k)) w in
  let t2 := add32 (Sigma0 (sa s)) (Maj (sa s) (sb s) (sc s)) in
  State (add32 t1 t2) (sa s) (sb s) (sc s) (add32 (sd s) t1) (se s) (sf s) (sg s).

Definition add_state (s t : state) : state :=
  State (add32 (sa s) (sa t)) (add32 (sb s) (sb t))
        (add32 (sc s) (sc t)) (add32 (sd s) (sd t))
        (add32 (se s) (se t)) (add32 (sf s) (sf t))
        (add32 (sg s) (sg t)) (add32 (sh s) (sh t)).

Definition compress (h : state) (blk : list byte) : state :=
  add_state h (fold_left round (combine K (schedule blk)) h).

Definition digest_of_state (s : state) : list byte :=
  bytes_of_word (sa s) ++ bytes_of_word (sb s) ++
  bytes_of_word (sc s) ++ bytes_of_word (sd s) ++
  bytes_of_word (se s) ++ bytes_of_word (sf s) ++
  bytes_of_word (sg s) ++ bytes_of_word (sh s).

Definition block_size : nat := 64.
Definition digest_size : nat := 32.

(** [hashlib.sha256(msg).digest()] *)
Definition sha256 (msg : list byte) : list byte :=
  let padded := pad msg in
  digest_of_state
    (fold_left compress (chunks block_size (List.length padded) padded) H0).

End SHA256.

(* ================================================================= *)
(** ** hmac.new(key, msg, hashlib.sha256).hexdigest() *)

Module HMAC.

Definition xor_byte (c : Z) (b : byte) : byte :=
  SHA256.byte_of_Z (Z.lxor c (SHA256.byte_val b)).

(** Keys longer than a block are hashed first; the result is padded
    with zero bytes to a full block. *)
Definition block_key (key : list byte) : list byte :=
  let k := if (SHA256.block_size <? List.length key)%nat
           then SHA256.sha256 key else key in
  k ++ repeat x00 (SHA256.block_size - List.length k).

Definition hmac_sha256 (key msg : list byte) : list byte :=
  let k := block_key key in
  let inner := SHA256.sha256 (map (xor_byte 0x36) k ++ msg) in
  SHA256.sha256 (map (xor_byte 0x5c) k ++ inner).

Definition hex_digit (n : Z) : ascii :=
  nth (Z.to_nat n)
      (list_ascii_of_string "0123456789abcdef") "0"%char.

Fixpoint hex_of_bytes (bs : list byte) : string :=
  match bs with
  | [] => EmptyString
  | b :: bs' =>
      let v := SHA256.byte_val b in
      String (hex_digit (v / 16)) (String (hex_digit (v mod 16)) (hex_of_bytes bs'))
  end.

Definition hexdigest (key msg : list byte) : string :=
  hex_of_bytes (hmac_sha256 key msg).

End HMAC.

Definition encode (s : string) : list byte := list_byte_of_string s.




Local Open Scope string_scope.

(* ================================================================= *)
(** ** Python values *)

(** What [response.json()] can return, and what the handler puts in the
    bodies it sends.  A [dict] is the list of its items in insertion
    order; its keys are strings and pairwise distinct. *)
#[warnings="-register-all"]
Inductive pyval : Type :=
| PNone
| PBool (b : bool)
| PInt (n : Z)
| PFloat (f : float)
| PStr (s : string)
| PList (xs : list pyval)
| PDict (items : list (string * pyval)).

Definition pydict : Type := list (string * pyval).

(** The exceptions the handler tells apart: [httpx.RequestError] (with
    its subclasses) has an [except] clause of its own, everything else
    that derives from [Exception] falls to the second clause.  The
    argument is [str(e)]. *)
Inductive exn : Type :=
| RequestError (msg : string)
| ValueError (msg : string)
| KeyError (msg : string)
| AttributeError (msg : string)
| OtherException (msg : string).

Definition exn_str (e : exn) : string :=
  match e with
  | RequestError m | ValueError m | KeyError m
  | AttributeError m | OtherException m => m
  end.

Definition is_RequestError (e : exn) : bool :=
  match e with
  | RequestError _ => true
  | _ => false
  end.

(** A computation that returns or raises. *)
Definition result (A : Type) : Type := (exn + A)%type.

(** The parts of the Python runtime that are taken as given. *)
Class PyRuntime : Type :=
  { (** [int(s)] on a [str]: the value, or the message of the
        [ValueError] it raises *)
    int_of_str : string -> string + Z;
    (** [repr(s)] on a [str]: quoting and escaping *)
    repr_str : string -> string;
    (** [repr(x)] on a [float] *)
    repr_float : float -> string;
    (** [traceback.format_exc()] while [e] is being handled *)
    format_exc : exn -> string }.

(** [str(n)] on an [int]: decimal digits, with a minus sign below zero. *)
Definition str_of_int (n : Z) : string :=
  NilEmpty.string_of_int (Z.to_int n).

Fixpoint join (sep : string) (l : list string) : string :=
  match l with
  | [] => ""
  | [s] => s
  | s :: l' => s ++ sep ++ join sep l'
  end.

(** [s * n] *)
Fixpoint str_mul (s : string) (n : nat) : string :=
  match n with
  | O => ""
  | S n' => s ++ str_mul s n'
  end.

Section PythonValues.

Context {rt : PyRuntime}.

Fixpoint py_repr (v : pyval) : string :=
  match v with
  | PNone => "None"
  | PBool true => "True"
  | PBool false => "False"
  | PInt n => str_of_int n
  | PFloat f => repr_float f
  | PStr s => repr_str s
  | PList xs => "[" ++ join ", " (map py_repr xs) ++ "]"
  | PDict items =>
      "{" ++ join ", " (map (fun '(k, x) => repr_str k ++ ": " ++ py_repr x) items)
          ++ "}"
  end.

(** [str(v)], which is also what an f-string field [{v}] inserts. *)
Definition py_str (v : pyval) : string :=
  match v with
  | PStr s => s
  | _ => py_repr v
  end.

End PythonValues.

(** [float(n)], exact for the small literals the source compares with. *)
Definition float_of_Z (n : Z) : float :=
  if (n <? 0)%Z then PrimFloat.opp (PrimFloat.of_uint63 (Uint63.of_Z (- n)))
  else PrimFloat.of_uint63 (Uint63.of_Z n).

(** [v == n] for an [int] literal [n] below 2^53 in magnitude: numbers
    compare by value across [bool], [int] and [float], anything else is
    unequal to a number. *)
Definition py_eq_int (v : pyval) (n : Z) : bool :=
  match v with
  | PBool b => ((if b then 1 else 0) =? n)%Z
  | PInt m => (m =? n)%Z
  | PFloat f => PrimFloat.eqb f (float_of_Z n)
  | _ => false
  end.

(** [bool(v)] *)
Definition truthy (v : pyval) : bool :=
  match v with
  | PNone => false
  | PBool b => b
  | PInt n => negb (n =? 0)%Z
  | PFloat f => negb (PrimFloat.eqb f PrimFloat.zero)
  | PStr s => negb (s =? "")
  | PList xs => negb (Nat.eqb (List.length xs) 0)
  | PDict items => negb (Nat.eqb (List.length items) 0)
  end.

Definition type_name (v : pyval) : string :=
  match v with
  | PNone => "NoneType"
  | PBool _ => "bool"
  | PInt _ => "int"
  | PFloat _ => "float"
  | PStr _ => "str"
  | PList _ => "list"
  | PDict _ => "dict"
  end.

Fixpoint dict_lookup (d : pydict) (key : string) : option pyval :=
  match d with
  | [] => None
  | (k, v) :: d' => if k =? key then Some v else dict_lookup d' key
  end.

Section Builtins.

Context {rt : PyRuntime}.

(** [d[key]] on a [dict] *)
Definition dict_getitem (d : pydict) (key : string) : result pyval :=
  match dict_lookup d key with
  | Some v => inr v
  | None => inl (KeyError (repr_str key))
  end.

(** [d.get(key, default)] on a [dict] *)
Definition dict_get (d : pydict) (key : string) (default : pyval) : pyval :=
  match dict_lookup d key with
  | Some v => v
  | None => default
  end.

(** [v.get(key, default)] on whatever [response.json()] returned: only
    a [dict] has the method. *)
Definition py_get (v : pyval) (key : string) (default : pyval) : result pyval :=
  match v with
  | PDict d => inr (dict_get d key default)
  | _ => inl (AttributeError
                ("'" ++ type_name v ++ "' object has no attribute 'get'"))
  end.

End Builtins.

(* ================================================================= *)
(** ** config.py *)

Record Settings : Type :=
  { ZIBAL_MERCHANT_ID : string;
    ZIBAL_VERIFY_URL : string;
    ZIBAL_PAYMENT_URL : string;
    TICKETING_API_URL : string;
    TICKETING_FRONTEND_URL : string;
    WEBHOOK_SECRET : string;
    DEBUG : bool }.

(** The fields that have a default in [class Settings]; the other three
    come from the environment. *)
Definition Settings_from_env (api frontend secret : string) : Settings :=
  {| ZIBAL_MERCHANT_ID := "zibal";
     ZIBAL_VERIFY_URL := "https://gateway.zibal.ir/v1/verify";
     ZIBAL_PAYMENT_URL := "https://gateway.zibal.ir/start/";
     TICKETING_API_URL := api;
     TICKETING_FRONTEND_URL := frontend;
     WEBHOOK_SECRET := secret;
     DEBUG := false |}.

(* ================================================================= *)
(** ** create_signature *)

Section Signature.

Context {rt : PyRuntime}.
Variable settings : Settings.

Definition create_signature (data : pydict) : result string :=
  match dict_getitem data "trackId" with
  | inl e => inl e
  | inr trackId =>
      match dict_getitem data "success" with
      | inl e => inl e
      | inr success =>
          match dict_getitem data "status" with
          | inl e => inl e
          | inr status =>
              let message :=
                py_str trackId ++ ":" ++ py_str success ++ ":" ++ py_str status in
              let signature :=
                HMAC.hexdigest (encode (WEBHOOK_SECRET settings)) (encode message) in
              inr signature
          end
      end
  end.

(** The signature as the specification words it: the three fields joined
    by colons, [success] and [status] in decimal, then the lowercase
    hexadecimal HMAC-SHA256 of the UTF-8 bytes under the shared secret. *)
Definition signed_message (trackId : string) (success status : Z) : string :=
  trackId ++ ":" ++ str_of_int success ++ ":" ++ str_of_int status.

Definition sign (trackId : string) (success status : Z) : string :=
  HMAC.hexdigest (encode (WEBHOOK_SECRET settings))
                 (encode (signed_message trackId success status)).

End Signature.

Definition lower_hex (c : ascii) : bool :=
  existsb (Ascii.eqb c) (list_ascii_of_string "0123456789abcdef").

Definition no_colon (s : string) : Prop :=
  ~ In ":"%char (list_ascii_of_string s).

(** The value of a lowercase hexadecimal digit, and [bytes.fromhex] on
    strings of such digits: the inverse of [hex_of_bytes]. *)
Definition hex_value (c : ascii) : Z :=
  let n := Z.of_N (N_of_ascii c) in
  if (n <? 58)%Z then n - 48 else n - 87.

Fixpoint bytes_of_hex (s : string) : list byte :=
  match s with
  | String hi (String lo s') =>
      SHA256.byte_of_Z (16 * hex_value hi + hex_value lo) :: bytes_of_hex s'
  | _ => []
  end.

(* ================================================================= *)
(** ** The effects of the handler *)

Inductive level : Type := INFO | ERROR.

(** [client.post(url, json=..., headers=..., timeout=...)] *)
Record request : Type :=
  { rq_url : string;
    rq_json : pyval;
    rq_headers : list (string * string);
    rq_timeout : float }.

(** An [httpx.Response], as far as the handler looks at it: what
    [response.json()] returns, or the message of the [ValueError]
    ([json.JSONDecodeError]) it raises on a body that is not JSON. *)
Record Response : Type := { json : string + pyval }.

(** [RedirectResponse(url=..., status_code=...)]: the arguments the
    handler gives the constructor.  What the framework sends to the
    browser is computed from them by [location] below. *)
Record RedirectResponse : Type :=
  { url : string;
    status_code : Z }.

Definition HTTP_303_SEE_OTHER : Z := 303.

(** *** The Location header

    Starlette's [RedirectResponse] does not send [url] as it is: it sets
    the Location header to [quote(str(url), safe=":/%#?=@[]!$&'()*+,;")].
    [urllib.parse.quote] works on the UTF-8 bytes of the text: letters,
    digits, the four characters "_.-~" and the characters of [safe] are
    kept, every other byte becomes a percent sign and two uppercase
    hexadecimal digits.  A string is held here as UTF-8 text, so the
    encoding step of [quote] always succeeds; a [str] with a lone
    surrogate, on which it raises, has no representation. *)
Definition always_safe (c : ascii) : bool :=
  let n := Z.of_N (N_of_ascii c) in
  ((65 <=? n)%Z && (n <=? 90)%Z) || ((97 <=? n)%Z && (n <=? 122)%Z)
  || ((48 <=? n)%Z && (n <=? 57)%Z)
  || existsb (Ascii.eqb c) (list_ascii_of_string "_.-~").

Definition kept (safe : string) (c : ascii) : bool :=
  always_safe c || existsb (Ascii.eqb c) (list_ascii_of_string safe).

Definition upper_hex_digit (n : Z) : ascii :=
  nth (Z.to_nat n) (list_ascii_of_string "0123456789ABCDEF") "0"%char.

Definition quote_byte (safe : string) (c : ascii) : string :=
  if kept safe c then String c ""
  else
    let n := Z.of_N (N_of_ascii c) in
    String "%" (String (upper_hex_digit (n / 16))
                       (String (upper_hex_digit (n mod 16)) "")).

(** [urllib.parse.quote(s, safe=safe)] *)
Fixpoint quote (safe s : string) : string :=
  match s with
  | EmptyString => ""
  | String c s' => quote_byte safe c ++ quote safe s'
  end.

Definition location_safe : string := ":/%#?=@[]!$&'()*+,;".

(** [response.headers["location"]] *)
Definition location (r : RedirectResponse) : string :=
  quote location_safe (url r).

(** Programs over the three effects, with [raise]. *)
Inductive prog (A : Type) : Type :=
| Ret (a : A)
| Raise (e : exn)
| Log (l : level) (msg : string) (k : prog A)
| Post (rq : request) (k : result Response -> prog A)
| UtcNow (k : string -> prog A).

Arguments Ret {A} a.
Arguments Raise {A} e.
Arguments Log {A} l msg k.
Arguments Post {A} rq k.
Arguments UtcNow {A} k.

Fixpoint bind {A B : Type} (p : prog A) (f : A -> prog B) : prog B :=
  match p with
  | Ret a => f a
  | Raise e => Raise e
  | Log l m k => Log l m (bind k f)
  | Post rq k => Post rq (fun o => bind (k o) f)
  | UtcNow k => UtcNow (fun t => bind (k t) f)
  end.

(** [try: p  except Exception as e: h e] *)
Fixpoint try_except {A : Type} (p : prog A) (h : exn -> prog A) : prog A :=
  match p with
  | Ret a => Ret a
  | Raise e => h e
  | Log l m k => Log l m (try_except k h)
  | Post rq k => Post rq (fun o => try_except (k o) h)
  | UtcNow k => UtcNow (fun t => try_except (k t) h)
  end.

Declare Scope prog_scope.
Delimit Scope prog_scope with prog.
Bind Scope prog_scope with prog.

Notation "x <- p ;; q" := (bind p (fun x => q))
  (at level 61, p at next level, right associativity) : prog_scope.
Notation "p ;; q" := (bind p (fun _ => q))
  (at level 61, right associativity) : prog_scope.

Definition lift {A : Type} (r : result A) : prog A :=
  match r with
  | inl e => Raise e
  | inr a => Ret a
  end.

Definition logger_info (msg : string) : prog unit := Log INFO msg (Ret tt).
Definition logger_error (msg : string) : prog unit := Log ERROR msg (Ret tt).

Definition client_post (url : string) (body : pyval)
    (headers : list (string * string)) (timeout : float) : prog Response :=
  Post {| rq_url := url; rq_json := body;
          rq_headers := headers; rq_timeout := timeout |} lift.

Definition response_json (r : Response) : prog pyval :=
  match json r with
  | inl msg => Raise (ValueError msg)
  | inr v => Ret v
  end.

(** [datetime.utcnow().isoformat()] *)
Definition utcnow_isoformat : prog string := UtcNow Ret.

(** The environment of one request: what the [n]-th outbound call
    answers to the request it is given, and what the clock shows after
    [n] calls. *)
Record world : Type :=
  { http_post : nat -> request -> result Response;
    utcnow : nat -> string }.

(** What an observer sees of a run, in order. *)
Inductive event : Type :=
| Logged (l : level) (msg : string)
| Posted (rq : request).

(** [run w n p]: the events of [p] and what it returns or raises, when
    [n] outbound calls have been made before. *)
Fixpoint run {A : Type} (w : world) (n : nat) (p : prog A) : list event * result A :=
  match p with
  | Ret a => ([], inr a)
  | Raise e => ([], inl e)
  | Log l m k =>
      let r := run w n k in (Logged l m :: fst r, snd r)
  | Post rq k =>
      let r := run w (S n) (k (http_post w n rq)) in (Posted rq :: fst r, snd r)
  | UtcNow k => run w n (k (utcnow w n))
  end.

Fixpoint posts (tr : list event) : list request :=
  match tr with
  | [] => []
  | Posted rq :: tr' => rq :: posts tr'
  | Logged _ _ :: tr' => posts tr'
  end.

Fixpoint errors_logged (tr : list event) : list string :=
  match tr with
  | [] => []
  | Logged ERROR m :: tr' => m :: errors_logged tr'
  | _ :: tr' => errors_logged tr'
  end.

(* ================================================================= *)
(** ** zibal_callback *)

Section Callback.

Context {rt : PyRuntime}.
Variable settings : Settings.

Local Open Scope prog_scope.

Definition py_of_option (o : option string) : pyval :=
  match o with
  | Some s => PStr s
  | None => PNone
  end.

Definition verify_data (tid : Z) : pydict :=
  [ ("merchant", PStr (ZIBAL_MERCHANT_ID settings));
    ("trackId", PInt tid) ].

Definition verify_headers : list (string * string) :=
  [ ("Content-Type", "application/json");
    ("Accept", "application/json") ].

Definition webhook_data (trackId : string) (success status : Z)
    (orderId : option string) (verify_result : pyval) (timestamp : string) : pydict :=
  [ ("trackId", PStr trackId);
    ("success", PInt success);
    ("status", PInt status);
    ("orderId", py_of_option orderId);
    ("verifyResult", verify_result);
    ("timestamp", PStr timestamp) ].

Definition webhook_url : string :=
  TICKETING_API_URL settings ++ "/api/v1/payments/zibal-webhook".

Definition webhook_headers (signature : string) : list (string * string) :=
  [ ("Content-Type", "application/json");
    ("X-Webhook-Signature", signature) ].

Definition timeout : float := 15%float.

(** The body of the [try] statement. *)
Definition zibal_callback_try (trackId : string) (success status : Z)
    (orderId : option string) : prog RedirectResponse :=
  logger_info "🔄 Verifying payment with Zibal..." ;;
  tid <- lift (match int_of_str trackId with
               | inl msg => inl (ValueError msg)
               | inr n => inr n
               end) ;;
  logger_info ("📤 Sending verify request: " ++ py_str (PDict (verify_data tid))) ;;
  verify_response <-
    client_post (ZIBAL_VERIFY_URL settings) (PDict (verify_data tid))
                verify_headers timeout ;;
  verify_result <- response_json verify_response ;;
  logger_info ("📥 Zibal verify response: " ++ py_str verify_result) ;;
  logger_info "📨 Forwarding to ticketing API..." ;;
  timestamp <- utcnow_isoformat ;;
  signature <-
    lift (create_signature settings
            (webhook_data trackId success status orderId verify_result timestamp)) ;;
  webhook_response <-
    client_post webhook_url
                (PDict (webhook_data trackId success status orderId
                                     verify_result timestamp))
                (webhook_headers signature) timeout ;;
  webhook_result <- response_json webhook_response ;;
  logger_info ("✅ Ticketing API response: " ++ py_str webhook_result) ;;
  result_code <- lift (py_get verify_result "result" PNone) ;;
  paid <- (if py_eq_int result_code 100
           then ok <- lift (py_get webhook_result "success" PNone) ;;
                Ret (truthy ok)
           else Ret false) ;;
  redirect_url <-
    (if paid : bool
     then
       logger_info "🎉 Payment successful - redirecting to success page" ;;
       ref_number <- lift (py_get webhook_result "ref_number" PNone) ;;
       reservation_id <- lift (py_get webhook_result "reservation_id" PNone) ;;
       Ret (TICKETING_FRONTEND_URL settings ++ "/payment/success"
            ++ "?ref_id=" ++ py_str ref_number
            ++ "&reservation_id=" ++ py_str reservation_id)
     else
       logger_info "❌ Payment failed - redirecting to failure page" ;;
       error_msg <- lift (py_get verify_result "message" (PStr "Unknown error")) ;;
       Ret (TICKETING_FRONTEND_URL settings ++ "/payment/failed"
            ++ "?error=" ++ py_str error_msg
            ++ "&trackId=" ++ trackId)) ;;
  logger_info ("🔀 Redirecting to: " ++ redirect_url) ;;
  logger_info (str_mul "=" 100) ;;
  Ret {| url := redirect_url; status_code := HTTP_303_SEE_OTHER |}.

(** The two [except] clauses, in the order Python tries them. *)
Definition zibal_callback_except (e : exn) : prog RedirectResponse :=
  if is_RequestError e
  then
    logger_error ("❌ Network error: " ++ exn_str e) ;;
    Ret {| url := TICKETING_FRONTEND_URL settings
                  ++ "/payment/failed?error=Connection+error";
           status_code := HTTP_303_SEE_OTHER |}
  else
    logger_error ("❌ Unexpected error: " ++ exn_str e) ;;
    logger_error (format_exc e) ;;
    Ret {| url := TICKETING_FRONTEND_URL settings
                  ++ "/payment/failed?error=System+error";
           status_code := HTTP_303_SEE_OTHER |}.

Definition zibal_callback (trackId : string) (success status : Z)
    (orderId : option string) : prog RedirectResponse :=
  logger_info (str_mul "=" 100) ;;
  logger_info "🔔 ZIBAL CALLBACK RECEIVED AT PROXY" ;;
  logger_info "📋 Parameters:" ;;
  logger_info ("   - trackId: " ++ trackId) ;;
  logger_info ("   - success: " ++ py_str (PInt success)) ;;
  logger_info ("   - status: " ++ py_str (PInt status)) ;;
  logger_info ("   - orderId: " ++ py_str (py_of_option orderId)) ;;
  logger_info (str_mul "=" 100) ;;
  try_except (zibal_callback_try trackId success status orderId)
             zibal_callback_except.

(** The two requests of a run, as the handler builds them. *)
Definition verify_request (tid : Z) : request :=
  {| rq_url := ZIBAL_VERIFY_URL settings;
     rq_json := PDict (verify_data tid);
     rq_headers := verify_headers;
     rq_timeout := timeout |}.

Definition webhook_request (trackId : string) (success status : Z)
    (orderId : option string) (verify_result : pyval) (timestamp : string) : request :=
  {| rq_url := webhook_url;
     rq_json := PDict (webhook_data trackId success status orderId
                                    verify_result timestamp);
     rq_headers := webhook_headers (sign settings trackId success status);
     rq_timeout := timeout |}.

(** One callback against the environment [w]: the response, the
    outbound requests in the order they were issued, and the lines
    logged at level ERROR. *)
Definition handle (w : world) (trackId : string) (success status : Z)
    (orderId : option string) : result RedirectResponse :=
  snd (run w 0 (zibal_callback trackId success status orderId)).

Definition requests (w : world) (trackId : string) (success status : Z)
    (orderId : option string) : list request :=
  posts (fst (run w 0 (zibal_callback trackId success status orderId))).

Definition error_log (w : world) (trackId : string) (success status : Z)
    (orderId : option string) : list string :=
  errors_logged (fst (run w 0 (zibal_callback trackId success status orderId))).

Definition redirect (target : string) : result RedirectResponse :=
  inr {| url := TICKETING_FRONTEND_URL settings ++ target; status_code := 303 |}.


Definition no_get (v : pyval) : exn :=
  AttributeError ("'" ++ type_name v ++ "' object has no attribute 'get'").

(** A run that fails on the network, with the requests it has issued
    when the failure occurs. *)
Inductive network_failure (w : world) (trackId : string) (success status : Z)
    (orderId : option string) : list request -> Prop :=
| verify_unreachable tid msg :
    int_of_str trackId = inr tid ->
    http_post w 0 (verify_request tid) = inl (RequestError msg) ->
    network_failure w trackId success status orderId [verify_request tid]
| forward_unreachable tid v msg :
    int_of_str trackId = inr tid ->
    http_post w 0 (verify_request tid) = inr {| json := inr v |} ->
    http_post w 1 (webhook_request trackId success status orderId v (utcnow w 1))
      = inl (RequestError msg) ->
    network_failure w trackId success status orderId
      [ verify_request tid;
        webhook_request trackId success status orderId v (utcnow w 1) ].


End Callback.

(** ** Total and partial correctness of programs *)

(** [p] may raise; when it returns, the value satisfies [Q], whatever
    the environment answers. *)
Fixpoint ensures {A : Type} (Q : A -> Prop) (p : prog A) : Prop :=
  match p with
  | Ret a => Q a
  | Raise _ => True
  | Log _ _ k => ensures Q k
  | Post _ k => forall o, ensures Q (k o)
  | UtcNow k => forall t, ensures Q (k t)
  end.

(** [p] never raises, and the value it returns satisfies [Q], whatever
    the environment answers. *)
Fixpoint returns {A : Type} (Q : A -> Prop) (p : prog A) : Prop :=
  match p with
  | Ret a => Q a
  | Raise _ => False
  | Log _ _ k => returns Q k
  | Post _ k => forall o, returns Q (k o)
  | UtcNow k => forall t, returns Q (k t)
  end.

(** ** Enumerating digests *)

Definition all_bytes : list byte :=
  map (fun n => match Byte.of_nat n with
                | Some b => b
                | None => x00
                end) (seq 0 256).

(** Every byte string of length [n]. *)
Fixpoint all_byte_strings (n : nat) : list (list byte) :=
  match n with
  | O => [[]]
  | S n' => flat_map (fun b => map (cons b) (all_byte_strings n')) all_bytes
  end.

(** ** A concrete runtime and environment, for running the model *)

Module Demo.

(** Plain decimal literals only: enough to run the examples. *)
Definition parse_decimal (s : string) : string + Z :=
  match NilEmpty.int_of_string s with
  | Some d => if (NilEmpty.string_of_int d =? str_of_int (Z.of_int d))%string
              then inr (Z.of_int d)
              else inl ("invalid literal for int() with base 10: '" ++ s ++ "'")
  | None => inl ("invalid literal for int() with base 10: '" ++ s ++ "'")
  end.

#[local] Instance runtime : PyRuntime :=
  {| int_of_str := parse_decimal;
     repr_str := fun s => "'" ++ s ++ "'";
     repr_float := fun _ => "<float>";
     format_exc := fun e => "Traceback (most recent call last): " ++ exn_str e |}.

Definition settings : Settings :=
  Settings_from_env "https://api.example" "https://front.example" "s3cret".

Definition respond (v : pyval) : result Response := inr {| json := inr v |}.

(** The scenario of the specification: the gateway verifies, the
    ticketing API accepts. *)
Definition paid_world : world :=
  {| http_post := fun n _ =>
       match n with
       | O => respond (PDict [("result", PInt 100)])
       | _ => respond (PDict [("success", PBool true);
                              ("ref_number", PStr "R1");
                              ("reservation_id", PStr "RES1")])
       end;
     utcnow := fun _ => "2024-01-01T00:00:00" |}.

(** The gateway declines with a message; the ticketing API answers
    [forward]. *)
Definition declined_world (message : string) (forward : pyval) : world :=
  {| http_post := fun n _ =>
       match n with
       | O => respond (PDict [("result", PInt 102); ("message", PStr message)])
       | _ => respond forward
       end;
     utcnow := fun _ => "2024-01-01T00:00:00" |}.

(** The gateway answers [verify]; the ticketing API cannot be reached. *)
Definition unreachable_api_world (verify : pyval) : world :=
  {| http_post := fun n _ =>
       match n with
       | O => respond verify
       | _ => inl (RequestError "All connection attempts failed")
       end;
     utcnow := fun _ => "2024-01-01T00:00:00" |}.

End Demo.

(* ================================================================= *)
(** ** redirect_to_zibal *)

Section Redirect.

Variable settings : Settings.

Local Open Scope prog_scope.

Definition redirect_to_zibal (trackId : string) : prog RedirectResponse :=
  let zibal_gateway_url := ZIBAL_PAYMENT_URL settings ++ trackId in
  logger_info (str_mul "=" 100) ;;
  logger_info "🔀 REDIRECT REQUEST RECEIVED" ;;
  logger_info ("📋 TrackId: " ++ trackId) ;;
  logger_info ("🎯 Redirecting to: " ++ zibal_gateway_url) ;;
  logger_info (str_mul "=" 100) ;;
  Ret {| url := zibal_gateway_url; status_code := HTTP_303_SEE_OTHER |}.

End Redirect.

(** ** Vocabulary for the properties of whole runs *)

(** The lines of a run's log, with their levels. *)
Fixpoint logged (tr : list event) : list (level * string) :=
  match tr with
  | [] => []
  | Logged l m :: tr' => (l, m) :: logged tr'
  | Posted _ :: tr' => logged tr'
  end.

(** The same configuration under another secret. *)
Definition with_secret (s : Settings) (secret : string) : Settings :=
  {| ZIBAL_MERCHANT_ID := ZIBAL_MERCHANT_ID s;
     ZIBAL_VERIFY_URL := ZIBAL_VERIFY_URL s;
     ZIBAL_PAYMENT_URL := ZIBAL_PAYMENT_URL s;
     TICKETING_API_URL := TICKETING_API_URL s;
     TICKETING_FRONTEND_URL := TICKETING_FRONTEND_URL s;
     WEBHOOK_SECRET := secret;
     DEBUG := DEBUG s |}.

(** An environment whose answers do not depend on the headers of the
    request it is sent. *)
Definition header_blind (w : world) : Prop :=
  forall n target body headers headers' t,
    http_post w n {| rq_url := target; rq_json := body;
                     rq_headers := headers; rq_timeout := t |}
    = http_post w n {| rq_url := target; rq_json := body;
                       rq_headers := headers'; rq_timeout := t |}.

(** An environment whose [n]-th answer is the same whatever it is sent. *)
Definition request_blind (w : world) : Prop :=
  forall n rq rq', http_post w n rq = http_post w n rq'.

(** The first of [keys] that [data] lacks. *)
Definition first_missing (data : pydict) (keys : list string) : option string :=
  find (fun k => match dict_lookup data k with
                 | Some _ => false
                 | None => true
                 end) keys.

Module Scenarios.

(** The gateway answers with a body that is not JSON. *)
Definition garbled_gateway_world : world :=
  {| http_post := fun n _ =>
       match n with
       | O => inr {| json := inl "Expecting value: line 1 column 1 (char 0)" |}
       | _ => Demo.respond (PDict [("success", PBool true)])
       end;
     utcnow := fun _ => "2024-01-01T00:00:00" |}.

(** A payload as [create_signature] may also be given: the three fields
    as numbers, and as the strings that print the same. *)
Definition numeric_payload : pydict :=
  [ ("trackId", PInt 998877); ("success", PInt 1); ("status", PInt 2) ].

Definition textual_payload : pydict :=
  [ ("trackId", PStr "998877"); ("success", PStr "1"); ("status", PStr "2") ].

End Scenarios.

(* ================================================================= *)
(** * Properties *)

(** ** The primitives agree with the published test vectors *)

Example K_first_last :
  List.length SHA256.K = 64%nat
  /\ firstn 4 SHA256.K = [0x428a2f98; 0x71374491; 0xb5c0fbcf; 0xe9b5dba5]
  /\ skipn 60 SHA256.K = [0x90befffa; 0xa4506ceb; 0xbef9a3f7; 0xc67178f2].
Proof. vm_compute. repeat split; reflexivity. Qed.

Example sha256_abc :
  HMAC.hex_of_bytes (SHA256.sha256 (encode "abc"))
  = "ba7816bf8f01cfea414140de5dae2223b00361a396177a9cb410ff61f20015ad".
Proof. vm_compute. reflexivity. Qed.

Example sha256_empty :
  HMAC.hex_of_bytes (SHA256.sha256 [])
  = "e3b0c44298fc1c149afbf4c8996fb92427ae41e4649b934ca495991b7852b855".
Proof. vm_compute. reflexivity. Qed.

(** 119 bytes: the padding spills into a third block. *)
Example sha256_two_blocks :
  HMAC.hex_of_bytes (SHA256.sha256 (encode (str_mul "a" 119)))
  = "31eba51c313a5c08226adf18d4a359cfdfd8d2e816b13f4af952f7ea6584dcfb".
Proof. vm_compute. reflexivity. Qed.

Example hmac_fox :
  HMAC.hexdigest (encode "key") (encode "The quick brown fox jumps over the lazy dog")
  = "f7bc83f430538424b13298e6aa6fb143ef4d59a14946175997479dbc2d1a3cd8".
Proof. vm_compute. reflexivity. Qed.

(** A key longer than one block is hashed first. *)
Example hmac_long_key :
  HMAC.hexdigest (encode (str_mul "k" 70)) (encode "998877:1:2")
  = "821c9a1cd51e2a85686cb6c1bc74ee527bcb2712c24499841bbe7647b935f633".
Proof. vm_compute. reflexivity. Qed.

Example demo_signature :
  create_signature (rt := Demo.runtime) Demo.settings
    (webhook_data "998877" 1 2 None PNone "2024-01-01T00:00:00")
  = inr "fed3131bcde8372ffbb921b69228c69f1d328b5e52402d0d01a7daadda55e07e".
Proof. vm_compute. reflexivity. Qed.

Example demo_signature_swapped :
  create_signature (rt := Demo.runtime) Demo.settings
    (webhook_data "998877" 2 1 None PNone "2024-01-01T00:00:00")
  = inr "7971bd7df1c30bc146f9627184ebb825df3f4e8ccf37ff5c822943769cd8aed3".
Proof. vm_compute. reflexivity. Qed.

Example demo_paid :
  run Demo.paid_world 0
      (zibal_callback (rt := Demo.runtime) Demo.settings "998877" 1 2 None)
  = ( [ Logged INFO (str_mul "=" 100);
        Logged INFO "🔔 ZIBAL CALLBACK RECEIVED AT PROXY";
        Logged INFO "📋 Parameters:";
        Logged INFO "   - trackId: 998877";
        Logged INFO "   - success: 1";
        Logged INFO "   - status: 2";
        Logged INFO "   - orderId: None";
        Logged INFO (str_mul "=" 100);
        Logged INFO "🔄 Verifying payment with Zibal...";
        Logged INFO "📤 Sending verify request: {'merchant': 'zibal', 'trackId': 998877}";
        Posted (verify_request Demo.settings 998877);
        Logged INFO "📥 Zibal verify response: {'result': 100}";
        Logged INFO "📨 Forwarding to ticketing API...";
        Posted (webhook_request Demo.settings "998877" 1 2 None
                  (PDict [("result", PInt 100)]) "2024-01-01T00:00:00");
        Logged INFO "✅ Ticketing API response: {'success': True, 'ref_number': 'R1', 'reservation_id': 'RES1'}";
        Logged INFO "🎉 Payment successful - redirecting to success page";
        Logged INFO "🔀 Redirecting to: https://front.example/payment/success?ref_id=R1&reservation_id=RES1";
        Logged INFO (str_mul "=" 100) ],
      inr {| url := "https://front.example/payment/success?ref_id=R1&reservation_id=RES1";
             status_code := 303 |} ).
Proof. vm_compute. reflexivity. Qed.

(** ** Python's equality and truth value on JSON values *)

Example py_eq_int_100 :
  py_eq_int (PInt 100) 100 = true
  /\ py_eq_int (PFloat 100%float) 100 = true
  /\ py_eq_int (PInt 102) 100 = false
  /\ py_eq_int (PStr "100") 100 = false
  /\ py_eq_int (PBool true) 100 = false
  /\ py_eq_int PNone 100 = false.
Proof. vm_compute. repeat split; reflexivity. Qed.

Example truthy_values :
  map truthy [ PBool true; PInt 1; PStr "yes"; PList [PNone]; PFloat 1%float ]
  = [ true; true; true; true; true ]
  /\ map truthy [ PNone; PBool false; PInt 0; PStr ""; PList []; PDict [];
                  PFloat 0%float ]
     = [ false; false; false; false; false; false; false ].
Proof. vm_compute. split; reflexivity. Qed.

(** The gateway reports 100.0, the ticketing API answers with
    [success] 1 and no reference: the run still takes the success
    branch, and the absent values are formatted as [None]. *)
Example demo_loose_success :
  handle (rt := Demo.runtime) Demo.settings
    {| http_post := fun n _ =>
         match n with
         | O => Demo.respond (PDict [("result", PFloat 100%float)])
         | _ => Demo.respond (PDict [("success", PInt 1)])
         end;
       utcnow := fun _ => "2024-01-01T00:00:00" |}
    "998877" 1 2 (Some "order-7")
  = inr {| url := "https://front.example/payment/success?ref_id=None&reservation_id=None";
           status_code := 303 |}.
Proof. vm_compute. reflexivity. Qed.

(** A gateway answer that is not a mapping is forwarded all the same,
    and fails only when the handler comes to read it. *)
Example demo_verify_list :
  let w := Demo.declined_world "unused" (PDict [("success", PBool true)]) in
  let w' := {| http_post := fun n rq =>
                 match n with
                 | O => Demo.respond (PList [PInt 100])
                 | _ => http_post w n rq
                 end;
               utcnow := utcnow w |} in
  handle (rt := Demo.runtime) Demo.settings w' "998877" 1 2 None
  = inr {| url := "https://front.example/payment/failed?error=System+error";
           status_code := 303 |}
  /\ List.length (requests (rt := Demo.runtime) Demo.settings w' "998877" 1 2 None)
     = 2%nat
  /\ error_log (rt := Demo.runtime) Demo.settings w' "998877" 1 2 None
     = [ "❌ Unexpected error: 'list' object has no attribute 'get'";
         "Traceback (most recent call last): 'list' object has no attribute 'get'" ].
Proof. vm_compute. repeat split; reflexivity. Qed.

(** ** Reasoning about programs *)

Lemma ensures_bind {A B : Type} (Q : B -> Prop) (p : prog A) (f : A -> prog B) :
  (forall a, ensures Q (f a)) -> ensures Q (bind p f).
Proof.
  intros Hf. induction p as [a | e | l m k IH | rq k IH | k IH]; cbn; auto.
Qed.

Lemma returns_try_except {A : Type} (Q : A -> Prop) (p : prog A) (h : exn -> prog A) :
  ensures Q p -> (forall e, returns Q (h e)) -> returns Q (try_except p h).
Proof.
  intros Hp Hh.
  induction p as [a | e | l m k IH | rq k IH | k IH]; cbn in *; auto.
Qed.

(** [returns] is about every run. *)
Lemma returns_sound {A : Type} (Q : A -> Prop) (p : prog A) (w : world) :
  returns Q p -> forall n, exists a, snd (run w n p) = inr a /\ Q a.
Proof.
  induction p as [a | e | l m k IH | rq k IH | k IH]; cbn; intros H n.
  - eauto.
  - contradiction.
  - auto.
  - apply IH, H.
  - apply IH, H.
Qed.

(** ** Digests and their hexadecimal form *)

Lemma sha256_length (msg : list byte) :
  List.length (SHA256.sha256 msg) = SHA256.digest_size.
Proof. reflexivity. Qed.

Lemma hmac_sha256_length (key msg : list byte) :
  List.length (HMAC.hmac_sha256 key msg) = SHA256.digest_size.
Proof. apply sha256_length. Qed.

Lemma hex_of_bytes_length (bs : list byte) :
  String.length (HMAC.hex_of_bytes bs) = (2 * List.length bs)%nat.
Proof.
  induction bs as [| b bs IH]; [reflexivity |].
  cbn [HMAC.hex_of_bytes String.length List.length]. rewrite IH. lia.
Qed.

Lemma hex_pair_lower (b : byte) :
  lower_hex (HMAC.hex_digit (SHA256.byte_val b / 16))
  && lower_hex (HMAC.hex_digit (SHA256.byte_val b mod 16)) = true.
Proof. destruct b; reflexivity. Qed.

Lemma hex_of_bytes_lower (bs : list byte) :
  forallb lower_hex (list_ascii_of_string (HMAC.hex_of_bytes bs)) = true.
Proof.
  induction bs as [| b bs IH]; [reflexivity |].
  cbn [HMAC.hex_of_bytes list_ascii_of_string forallb].
  rewrite IH, andb_true_r. apply hex_pair_lower.
Qed.

Lemma byte_of_hex_pair (b : byte) :
  SHA256.byte_of_Z (16 * hex_value (HMAC.hex_digit (SHA256.byte_val b / 16))
                    + hex_value (HMAC.hex_digit (SHA256.byte_val b mod 16))) = b.
Proof. destruct b; reflexivity. Qed.

Lemma bytes_of_hex_of_bytes (bs : list byte) :
  bytes_of_hex (HMAC.hex_of_bytes bs) = bs.
Proof.
  induction bs as [| b bs IH]; [reflexivity |].
  cbn [HMAC.hex_of_bytes bytes_of_hex]. now rewrite IH, byte_of_hex_pair.
Qed.

Lemma hex_of_bytes_inj (bs bs' : list byte) :
  HMAC.hex_of_bytes bs = HMAC.hex_of_bytes bs' -> bs = bs'.
Proof.
  intros H. rewrite <- (bytes_of_hex_of_bytes bs), H.
  apply bytes_of_hex_of_bytes.
Qed.

(** ** Decimal numerals and the signed message *)

Lemma str_of_int_inj (n m : Z) : str_of_int n = str_of_int m -> n = m.
Proof.
  unfold str_of_int. intros H. apply DecimalZ.to_int_inj.
  assert (E : Some (Z.to_int n) = Some (Z.to_int m))
    by now rewrite <- !NilEmpty.isi, H.
  now injection E.
Qed.

Lemma string_of_uint_no_colon (d : Decimal.uint) :
  no_colon (NilEmpty.string_of_uint d).
Proof.
  unfold no_colon.
  induction d; cbn [NilEmpty.string_of_uint list_ascii_of_string In];
    [ tauto | intros [H | H]; [discriminate H | auto] .. ].
Qed.

Lemma str_of_int_no_colon (n : Z) : no_colon (str_of_int n).
Proof.
  unfold str_of_int, NilEmpty.string_of_int.
  destruct (Z.to_int n) as [d | d].
  - apply string_of_uint_no_colon.
  - intros [H | H]; [discriminate H | now apply (string_of_uint_no_colon d)].
Qed.

Lemma in_colon_suffix (a y : string) :
  In ":"%char (list_ascii_of_string (a ++ ":" ++ y)).
Proof. induction a as [| c a IH]; cbn; auto. Qed.

(** The last colon of a string splits it in one way only. *)
Lemma split_last_colon (a b x y : string) :
  no_colon x -> no_colon y ->
  a ++ ":" ++ x = b ++ ":" ++ y -> a = b /\ x = y.
Proof.
  intros Hx Hy. revert b.
  induction a as [| c a IH]; intros [| c' b] H; cbn in H.
  - injection H as H. now split.
  - injection H as Hc H. subst x. exfalso. apply Hx, in_colon_suffix.
  - injection H as Hc H. subst y. exfalso. apply Hy, in_colon_suffix.
  - injection H as Hc H. destruct (IH b H) as [-> ->]. now subst c'.
Qed.

Lemma append_assoc (a b c : string) : a ++ b ++ c = (a ++ b) ++ c.
Proof. induction a as [| ch a IH]; cbn; [reflexivity | now rewrite IH]. Qed.

Lemma signed_message_inj t s st t' s' st' :
  signed_message t s st = signed_message t' s' st' ->
  t = t' /\ s = s' /\ st = st'.
Proof.
  unfold signed_message. intros H.
  assert (H' : (t ++ ":" ++ str_of_int s) ++ ":" ++ str_of_int st
               = (t' ++ ":" ++ str_of_int s') ++ ":" ++ str_of_int st').
  { rewrite <- !append_assoc. exact H. }
  apply split_last_colon in H'; try apply str_of_int_no_colon.
  destruct H' as [H1 H2].
  apply split_last_colon in H1; try apply str_of_int_no_colon.
  destruct H1 as [Ht Hs].
  repeat split; auto using str_of_int_inj.
Qed.

(** ** Percent-encoding *)

Example quote_examples :
  quote location_safe
    "https://front.example/payment/failed?error=a&b=c d&trackId=998877"
  = "https://front.example/payment/failed?error=a&b=c%20d&trackId=998877"
  /\ quote location_safe "a%20b" = "a%20b"
  /\ quote location_safe "é~_.-" = "%C3%A9~_.-"
  /\ quote location_safe "100%" = "100%"
  /\ quote location_safe (String "x" (String (ascii_of_nat 10) "y<>"))
     = "x%0Ay%3C%3E".
Proof. vm_compute. repeat split; reflexivity. Qed.

Lemma quote_app (safe a b : string) :
  quote safe (a ++ b) = quote safe a ++ quote safe b.
Proof.
  induction a as [| c a IH]; cbn [append quote]; [reflexivity |].
  now rewrite IH, append_assoc.
Qed.

(** Text made of kept characters passes unchanged. *)
Lemma quote_kept (safe s : string) :
  forallb (kept safe) (list_ascii_of_string s) = true -> quote safe s = s.
Proof.
  induction s as [| c s IH]; cbn [list_ascii_of_string forallb quote];
    [reflexivity |].
  intros H. apply andb_true_iff in H. destruct H as [Hc Hs].
  unfold quote_byte. rewrite Hc, (IH Hs). reflexivity.
Qed.

Lemma quote_byte_kept (c : ascii) :
  forallb (kept location_safe)
          (list_ascii_of_string (quote_byte location_safe c)) = true.
Proof. destruct c as [[] [] [] [] [] [] [] []]; reflexivity. Qed.

Lemma list_ascii_of_string_app (a b : string) :
  list_ascii_of_string (a ++ b)
  = (list_ascii_of_string a ++ list_ascii_of_string b)%list.
Proof. induction a as [| x a IH]; cbn; [reflexivity | now rewrite IH]. Qed.

Lemma quote_output_kept (s : string) :
  forallb (kept location_safe)
          (list_ascii_of_string (quote location_safe s)) = true.
Proof.
  induction s as [| c s IH]; cbn [quote]; [reflexivity |].
  rewrite list_ascii_of_string_app, forallb_app, quote_byte_kept, IH.
  reflexivity.
Qed.

(** The percent sign is itself kept, so encoding twice changes nothing. *)
Lemma quote_idempotent (s : string) :
  quote location_safe (quote location_safe s) = quote location_safe s.
Proof. apply quote_kept, quote_output_kept. Qed.

(** ** Counting digests *)

Lemma in_all_bytes (b : byte) : In b all_bytes.
Proof.
  unfold all_bytes. apply in_map_iff. exists (Byte.to_nat b). split.
  - now rewrite Byte.of_to_nat.
  - apply in_seq. pose proof (Byte.to_nat_bounded b). lia.
Qed.

Lemma in_all_byte_strings (bs : list byte) :
  In bs (all_byte_strings (List.length bs)).
Proof.
  induction bs as [| b bs IH]; cbn [List.length all_byte_strings].
  - now left.
  - apply in_flat_map. exists b. split; [apply in_all_bytes |].
    now apply in_map.
Qed.

(** No sequence of pairwise distinct values fits in a finite list. *)
Lemma pigeonhole {X : Type} (f : nat -> X) (universe : list X) :
  (forall n, In (f n) universe) ->
  ~ (forall i j, f i = f j -> i = j).
Proof.
  intros Hin Hinj.
  pose (l := map f (seq 0 (S (List.length universe)))).
  assert (Hnd : NoDup l).
  { apply NoDup_map_NoDup_ForallPairs; [| apply seq_NoDup].
    intros i j _ _. apply Hinj. }
  assert (Hincl : incl l universe).
  { intros x Hx. apply in_map_iff in Hx. destruct Hx as [n [<- _]]. apply Hin. }
  pose proof (NoDup_incl_length Hnd Hincl) as Hlen.
  unfold l in Hlen. rewrite length_map, length_seq in Hlen. lia.
Qed.

Lemma str_mul_length (n : nat) : String.length (str_mul "a" n) = n.
Proof. induction n as [| n IH]; cbn; [reflexivity | now rewrite IH]. Qed.

Lemma str_mul_inj (i j : nat) : str_mul "a" i = str_mul "a" j -> i = j.
Proof. intros H. now rewrite <- (str_mul_length i), H, str_mul_length. Qed.

(** Under any secret and for any [success] and [status], two different
    [trackId]s have the same signature: there are more of them than
    there are 32-byte digests. *)
Lemma sign_collision (settings : Settings) (success status : Z) :
  ~ (forall trackId trackId' : string,
       trackId <> trackId' ->
       sign settings trackId success status
       <> sign settings trackId' success status).
Proof.
  intros Hinj.
  apply (pigeonhole
           (fun n => HMAC.hmac_sha256 (encode (WEBHOOK_SECRET settings))
                       (encode (signed_message (str_mul "a" n) success status)))
           (all_byte_strings SHA256.digest_size)).
  - intros n. apply (in_all_byte_strings (HMAC.hmac_sha256 _ _)).
  - intros i j H. destruct (Nat.eq_dec i j) as [E | E]; [exact E |].
    exfalso. apply (Hinj (str_mul "a" i) (str_mul "a" j)).
    + intros Hs. apply E, str_mul_inj, Hs.
    + unfold sign, HMAC.hexdigest. now rewrite H.
Qed.

(* ================================================================= *)
(** ** The signature *)

Section SignatureProperties.

Context {rt : PyRuntime}.
Variable settings : Settings.

Lemma create_signature_lookup (data : pydict) trackId success status :
  dict_lookup data "trackId" = Some (PStr trackId) ->
  dict_lookup data "success" = Some (PInt success) ->
  dict_lookup data "status" = Some (PInt status) ->
  create_signature settings data = inr (sign settings trackId success status).
Proof.
  intros Ht Hs Hst. unfold create_signature, dict_getitem.
  rewrite Ht, Hs, Hst. reflexivity.
Qed.

Lemma create_signature_webhook_data trackId success status orderId v ts :
  create_signature settings (webhook_data trackId success status orderId v ts)
  = inr (sign settings trackId success status).
Proof. apply create_signature_lookup; reflexivity. Qed.

(** C3.  On a payload whose [trackId] is a string and whose [success]
    and [status] are integers, [create_signature] returns the HMAC-SHA256,
    keyed with the UTF-8 bytes of [WEBHOOK_SECRET], of the UTF-8 bytes of
    "{trackId}:{success}:{status}" (the two integers in decimal), written
    as 64 lowercase hexadecimal digits. *)
Theorem create_signature_hmac (data : pydict) (trackId : string) (success status : Z) :
  dict_lookup data "trackId" = Some (PStr trackId) ->
  dict_lookup data "success" = Some (PInt success) ->
  dict_lookup data "status" = Some (PInt status) ->
  let message := trackId ++ ":" ++ str_of_int success ++ ":" ++ str_of_int status in
  let digest := HMAC.hmac_sha256 (encode (WEBHOOK_SECRET settings)) (encode message) in
  create_signature settings data = inr (HMAC.hex_of_bytes digest)
  /\ String.length (HMAC.hex_of_bytes digest) = 64%nat
  /\ forallb lower_hex (list_ascii_of_string (HMAC.hex_of_bytes digest)) = true.
Proof.
  intros Ht Hs Hst message digest. split; [| split].
  - now apply create_signature_lookup.
  - unfold digest. rewrite hex_of_bytes_length, hmac_sha256_length.
    reflexivity.
  - apply hex_of_bytes_lower.
Qed.

(** X16.  The signed message is order-sensitive: two inputs that
    differ in [trackId], [success] or [status] (a swap of two unequal
    [success] and [status] included) are signed over different messages,
    and under one secret their signatures are equal exactly when
    HMAC-SHA256 gives both messages the same digest. *)
Theorem signed_message_order_sensitive
    (trackId trackId' : string) (success success' status status' : Z)
    (orderId orderId' : option string) (v v' : pyval) (ts ts' : string) :
  (trackId, success, status) <> (trackId', success', status') ->
  signed_message trackId success status <> signed_message trackId' success' status'
  /\ (create_signature settings (webhook_data trackId success status orderId v ts)
      = create_signature settings
          (webhook_data trackId' success' status' orderId' v' ts')
      <-> HMAC.hmac_sha256 (encode (WEBHOOK_SECRET settings))
                           (encode (signed_message trackId success status))
          = HMAC.hmac_sha256 (encode (WEBHOOK_SECRET settings))
                             (encode (signed_message trackId' success' status'))).
Proof.
  intros Hne. split.
  - intros H. apply signed_message_inj in H. destruct H as [-> [-> ->]].
    now apply Hne.
  - rewrite !create_signature_webhook_data. unfold sign, HMAC.hexdigest. split.
    + intros H. apply hex_of_bytes_inj. congruence.
    + intros H. now rewrite H.
Qed.

End SignatureProperties.

(** C4.  The signature of a webhook payload is a function of [trackId],
    [success], [status] and the secret alone: two payloads that agree on
    these get the same signature, whatever their [orderId],
    [verifyResult] and [timestamp], and whatever the rest of the
    configuration. *)
Theorem signature_deterministic (rt rt' : PyRuntime) (settings settings' : Settings)
    (trackId : string) (success status : Z)
    (orderId orderId' : option string) (v v' : pyval) (ts ts' : string) :
  WEBHOOK_SECRET settings = WEBHOOK_SECRET settings' ->
  create_signature (rt := rt) settings
    (webhook_data trackId success status orderId v ts)
  = create_signature (rt := rt') settings'
      (webhook_data trackId success status orderId' v' ts').
Proof.
  intros Hsecret. rewrite !create_signature_webhook_data.
  unfold sign. now rewrite Hsecret.
Qed.

(** Signatures are not injective in [trackId]: digests are 32 bytes
    long and [trackId]s are unbounded, so some two of them collide.  The
    argument counts; it exhibits no pair. *)
Lemma signature_not_injective :
  ~ (forall (rt : PyRuntime) (settings : Settings)
            (trackId trackId' : string) (success status : Z),
       trackId <> trackId' ->
       create_signature settings
         (webhook_data trackId success status None PNone "")
       <> create_signature settings
            (webhook_data trackId' success status None PNone "")).
Proof.
  intros Hclaim. apply (sign_collision Demo.settings 1 2).
  intros t t' Hne Heq.
  apply (Hclaim Demo.runtime Demo.settings t t' 1 2 Hne).
  rewrite !create_signature_webhook_data. now rewrite Heq.
Qed.

(* ================================================================= *)
(** ** The callback handler *)

Section CallbackProperties.

Context {rt : PyRuntime}.
Variable settings : Settings.

(** Symbolic execution of the handler, as far as the environment is
    known. *)
Ltac exec :=
  cbn [run bind try_except logger_info logger_error lift client_post
       response_json utcnow_isoformat snd fst json posts errors_logged
       is_RequestError exn_str py_get zibal_callback_except no_get].

Ltac start :=
  unfold handle, requests, error_log, redirect, zibal_callback,
    zibal_callback_try, verify_request, webhook_request in *;
  exec.

Ltac to_verify Hint Hv :=
  start; rewrite Hint; exec; rewrite Hv; exec.

Ltac to_forward Hint Hv Hw :=
  to_verify Hint Hv; rewrite create_signature_webhook_data; exec;
  rewrite Hw; exec.





(** C5.  When the verify call, or the forward call after any verify
    result, fails on the network, the handler answers with a 303
    redirect to [<frontend>/payment/failed?error=Connection+error], and
    the requests of the run are those issued up to the failure, each
    once: the failed call is not tried again. *)
Theorem connection_error_redirect (w : world) (trackId : string)
    (success status : Z) (orderId : option string) (issued : list request) :
  network_failure settings w trackId success status orderId issued ->
  handle settings w trackId success status orderId
  = inr {| url := TICKETING_FRONTEND_URL settings
                  ++ "/payment/failed?error=Connection+error";
           status_code := 303 |}
  /\ requests settings w trackId success status orderId = issued.
Proof.
  intros [tid msg Hint Hv | tid v msg Hint Hv Hw].
  - to_verify Hint Hv. split; reflexivity.
  - to_forward Hint Hv Hw. split; reflexivity.
Qed.


Lemma zibal_callback_try_303 trackId success status orderId :
  ensures (fun r => status_code r = 303)
          (zibal_callback_try settings trackId success status orderId).
Proof.
  unfold zibal_callback_try.
  repeat (apply ensures_bind; intros). reflexivity.
Qed.

Lemma zibal_callback_except_303 (e : exn) :
  returns (fun r => status_code r = 303) (zibal_callback_except settings e).
Proof.
  unfold zibal_callback_except. destruct (is_RequestError e); reflexivity.
Qed.

(** C7.  Whatever the inputs and whatever the environment answers to the
    two calls, the handler returns a redirect with status 303: it never
    raises, and never answers with another status. *)
Theorem always_303 (w : world) (trackId : string) (success status : Z)
    (orderId : option string) :
  exists target : string,
    handle settings w trackId success status orderId
    = inr {| url := target; status_code := 303 |}.
Proof.
  destruct (returns_sound (fun r => status_code r = 303)
              (zibal_callback settings trackId success status orderId) w)
    with (n := 0%nat) as [[target code] [Hrun Hcode]].
  - unfold zibal_callback. cbn [bind logger_info returns].
    apply returns_try_except.
    + apply zibal_callback_try_303.
    + apply zibal_callback_except_303.
  - exists target. unfold handle. rewrite Hrun. cbn in Hcode. now subst code.
Qed.

(** C8.  Once the verify call has completed with a body that parses, the
    run issues exactly two requests: first the verify request, to
    [ZIBAL_VERIFY_URL]; then the webhook request, to the ticketing API at
    [TICKETING_API_URL] + "/api/v1/payments/zibal-webhook", whose body
    carries the inbound parameters, the verify result and the timestamp,
    and whose header carries the signature.  Nothing is assumed about the
    verify result: it need not be 100, nor even a mapping. *)
Theorem forward_follows_verify (w : world) (trackId : string)
    (success status : Z) (orderId : option string) (tid : Z) (v : pyval) :
  let to_gateway :=
    {| rq_url := ZIBAL_VERIFY_URL settings;
       rq_json := PDict [ ("merchant", PStr (ZIBAL_MERCHANT_ID settings));
                          ("trackId", PInt tid) ];
       rq_headers := [ ("Content-Type", "application/json");
                       ("Accept", "application/json") ];
       rq_timeout := 15%float |} in
  let to_ticketing_api :=
    {| rq_url := TICKETING_API_URL settings ++ "/api/v1/payments/zibal-webhook";
       rq_json := PDict [ ("trackId", PStr trackId);
                          ("success", PInt success);
                          ("status", PInt status);
                          ("orderId", match orderId with
                                      | Some o => PStr o
                                      | None => PNone
                                      end);
                          ("verifyResult", v);
                          ("timestamp", PStr (utcnow w 1)) ];
       rq_headers :=
         [ ("Content-Type", "application/json");
           ("X-Webhook-Signature",
            HMAC.hexdigest
              (encode (WEBHOOK_SECRET settings))
              (encode (trackId ++ ":" ++ str_of_int success
                               ++ ":" ++ str_of_int status))) ];
       rq_timeout := 15%float |} in
  int_of_str trackId = inr tid ->
  http_post w 0 to_gateway = inr {| json := inr v |} ->
  requests settings w trackId success status orderId
  = [ to_gateway; to_ticketing_api ].
Proof.
  intros to_gateway to_ticketing_api Hint Hv.
  change to_gateway with (verify_request settings tid) in *.
  change to_ticketing_api
    with (webhook_request settings trackId success status orderId v (utcnow w 1)).
  clear to_gateway to_ticketing_api.
  to_verify Hint Hv.
  rewrite create_signature_webhook_data. exec. do 2 f_equal.
  match goal with
  | |- context [http_post w 1 ?rq] =>
      destruct (http_post w 1 rq) as [e | [[m | v']]]
  end; exec.
  - destruct e; reflexivity.
  - reflexivity.
  - destruct v; exec; try reflexivity.
    destruct (py_eq_int _ 100); exec.
    + destruct v'; exec; try reflexivity.
      destruct (truthy _); exec; reflexivity.
    + reflexivity.
Qed.

End CallbackProperties.

(* ================================================================= *)
(** ** The theorems at concrete inputs *)

Lemma create_signature_hmac_witness :
  create_signature (rt := Demo.runtime) Demo.settings
    (webhook_data "998877" 1 2 None PNone "2024-01-01T00:00:00")
  = inr (HMAC.hex_of_bytes
           (HMAC.hmac_sha256 (encode "s3cret") (encode "998877:1:2")))
  /\ String.length
       (HMAC.hex_of_bytes
          (HMAC.hmac_sha256 (encode "s3cret") (encode "998877:1:2"))) = 64%nat
  /\ forallb lower_hex
       (list_ascii_of_string
          (HMAC.hex_of_bytes
             (HMAC.hmac_sha256 (encode "s3cret") (encode "998877:1:2")))) = true.
Proof.
  exact (create_signature_hmac (rt := Demo.runtime) Demo.settings
           (webhook_data "998877" 1 2 None PNone "2024-01-01T00:00:00")
           "998877" 1 2 eq_refl eq_refl eq_refl).
Defined.

Lemma signature_deterministic_witness :
  create_signature (rt := Demo.runtime) Demo.settings
    (webhook_data "998877" 1 2 None (PDict [("result", PInt 100)])
                  "2024-01-01T00:00:00")
  = create_signature (rt := Demo.runtime)
      (Settings_from_env "https://api2.example" "https://front2.example" "s3cret")
      (webhook_data "998877" 1 2 (Some "order-7") (PDict [("result", PInt 102)])
                    "2025-06-30T12:00:00").
Proof.
  apply (signature_deterministic Demo.runtime Demo.runtime Demo.settings
           (Settings_from_env "https://api2.example" "https://front2.example"
                              "s3cret")
           "998877" 1 2).
  reflexivity.
Defined.

Lemma signed_message_order_sensitive_witness :
  signed_message "998877" 1 2 <> signed_message "998877" 2 1
  /\ (create_signature (rt := Demo.runtime) Demo.settings
        (webhook_data "998877" 1 2 None PNone "")
      = create_signature (rt := Demo.runtime) Demo.settings
          (webhook_data "998877" 2 1 None PNone "")
      <-> HMAC.hmac_sha256 (encode "s3cret") (encode (signed_message "998877" 1 2))
          = HMAC.hmac_sha256 (encode "s3cret") (encode (signed_message "998877" 2 1))).
Proof.
  apply (signed_message_order_sensitive (rt := Demo.runtime) Demo.settings
           "998877" "998877" 1 2 2 1).
  intros H. discriminate H.
Defined.





(** The forward call fails although the gateway has verified the
    payment. *)
Lemma connection_error_redirect_witness :
  handle (rt := Demo.runtime) Demo.settings
    (Demo.unreachable_api_world (PDict [("result", PInt 100)]))
    "998877" 1 2 None
  = inr {| url := "https://front.example/payment/failed?error=Connection+error";
           status_code := 303 |}
  /\ requests (rt := Demo.runtime) Demo.settings
       (Demo.unreachable_api_world (PDict [("result", PInt 100)]))
       "998877" 1 2 None
     = [ verify_request Demo.settings 998877;
         webhook_request Demo.settings "998877" 1 2 None
           (PDict [("result", PInt 100)]) "2024-01-01T00:00:00" ].
Proof.
  apply (connection_error_redirect (rt := Demo.runtime) Demo.settings
           (Demo.unreachable_api_world (PDict [("result", PInt 100)]))
           "998877" 1 2 None).
  apply (forward_unreachable (rt := Demo.runtime) Demo.settings
           (Demo.unreachable_api_world (PDict [("result", PInt 100)]))
           "998877" 1 2 None
           998877 (PDict [("result", PInt 100)])
           "All connection attempts failed");
    reflexivity.
Defined.


Lemma forward_follows_verify_witness :
  requests (rt := Demo.runtime) Demo.settings
    (Demo.declined_world "Declined" (PDict [("success", PBool true)]))
    "998877" 1 2 None
  = [ {| rq_url := "https://gateway.zibal.ir/v1/verify";
         rq_json := PDict [ ("merchant", PStr "zibal");
                            ("trackId", PInt 998877) ];
         rq_headers := [ ("Content-Type", "application/json");
                         ("Accept", "application/json") ];
         rq_timeout := 15%float |};
      {| rq_url := "https://api.example/api/v1/payments/zibal-webhook";
         rq_json :=
           PDict [ ("trackId", PStr "998877");
                   ("success", PInt 1);
                   ("status", PInt 2);
                   ("orderId", PNone);
                   ("verifyResult",
                    PDict [("result", PInt 102); ("message", PStr "Declined")]);
                   ("timestamp", PStr "2024-01-01T00:00:00") ];
         rq_headers :=
           [ ("Content-Type", "application/json");
             ("X-Webhook-Signature",
              "fed3131bcde8372ffbb921b69228c69f1d328b5e52402d0d01a7daadda55e07e") ];
         rq_timeout := 15%float |} ].
Proof.
  rewrite (forward_follows_verify (rt := Demo.runtime) Demo.settings
             (Demo.declined_world "Declined" (PDict [("success", PBool true)]))
             "998877" 1 2 None 998877
             (PDict [("result", PInt 102); ("message", PStr "Declined")])
             eq_refl eq_refl).
  vm_compute. reflexivity.
Defined.


(* ================================================================= *)
(** ** More on the signature *)

Section SignatureEdges.

Context {rt : PyRuntime}.
Variable settings : Settings.

(** X11.  [create_signature] raises [KeyError] exactly when the payload
    lacks one of "trackId", "success", "status", naming the first one
    missing in that order; otherwise it returns 64 lowercase hexadecimal
    digits, whatever the types of the three values. *)
Theorem create_signature_missing_key (data : pydict) :
  match first_missing data ["trackId"; "success"; "status"] with
  | Some key => create_signature settings data = inl (KeyError (repr_str key))
  | None =>
      exists signature,
        create_signature settings data = inr signature
        /\ String.length signature = 64%nat
        /\ forallb lower_hex (list_ascii_of_string signature) = true
  end.
Proof.
  unfold first_missing, create_signature, dict_getitem. cbn [find].
  destruct (dict_lookup data "trackId"); [| reflexivity].
  destruct (dict_lookup data "success"); [| reflexivity].
  destruct (dict_lookup data "status"); [| reflexivity].
  eexists. split; [reflexivity |]. unfold HMAC.hexdigest. split.
  - now rewrite hex_of_bytes_length, hmac_sha256_length.
  - apply hex_of_bytes_lower.
Qed.

(** X12.  The signature sees the three values only through [str()]:
    two payloads whose "trackId", "success" and "status" print the same
    (an integer and the string of its digits, say) get the same
    signature, or the same [KeyError]. *)
Theorem create_signature_str_only (data data' : pydict) :
  (forall key, In key ["trackId"; "success"; "status"] ->
     option_map py_str (dict_lookup data key)
     = option_map py_str (dict_lookup data' key)) ->
  create_signature settings data = create_signature settings data'.
Proof.
  intros H.
  pose proof (H "trackId" (or_introl eq_refl)) as Ht.
  pose proof (H "success" (or_intror (or_introl eq_refl))) as Hs.
  pose proof (H "status" (or_intror (or_intror (or_introl eq_refl)))) as Hst.
  unfold create_signature, dict_getitem.
  destruct (dict_lookup data "trackId"), (dict_lookup data' "trackId");
    try discriminate Ht; [| reflexivity].
  destruct (dict_lookup data "success"), (dict_lookup data' "success");
    try discriminate Hs; [| reflexivity].
  destruct (dict_lookup data "status"), (dict_lookup data' "status");
    try discriminate Hst; [| reflexivity].
  cbn in Ht, Hs, Hst. congruence.
Qed.

(** X13.  The colons of the message do not delimit string fields: what
    follows a colon at the end of "trackId" can move to the front of a
    string-valued "success" without changing the signature. *)
Theorem create_signature_colon_shift (a b c : string) (status : pyval) :
  create_signature settings
    [ ("trackId", PStr (a ++ ":" ++ b)); ("success", PStr c); ("status", status) ]
  = create_signature settings
      [ ("trackId", PStr a); ("success", PStr (b ++ ":" ++ c)); ("status", status) ].
Proof.
  unfold create_signature, dict_getitem.
  cbn [dict_lookup String.eqb Ascii.eqb Bool.eqb]. cbn [py_str].
  rewrite <- !append_assoc. reflexivity.
Qed.

End SignatureEdges.

(* ================================================================= *)
(** ** More on the runs of the handler *)

Lemma append_cancel_l (a x y : string) : a ++ x = a ++ y -> x = y.
Proof.
  induction a as [| c a IH]; cbn; intros H; [exact H |].
  injection H as H. now apply IH.
Qed.

Section RunProperties.

Context {rt : PyRuntime}.
Variable settings : Settings.

Ltac exec :=
  cbn [run bind try_except logger_info logger_error lift client_post
       response_json utcnow_isoformat snd fst json posts errors_logged logged
       is_RequestError exn_str py_get zibal_callback_except no_get].

Ltac start :=
  unfold handle, requests, error_log, redirect, zibal_callback,
    zibal_callback_try, verify_request, webhook_request in *;
  exec.

(** One step of case analysis on what the runtime or the environment
    answers at the point where the run is stuck. *)
Ltac branch :=
  match goal with
  | |- context [int_of_str ?t] => destruct (int_of_str t) eqn:?
  | |- context [create_signature ?s (webhook_data ?a ?b ?c ?d ?e ?f)] =>
      rewrite (create_signature_webhook_data s a b c d e f)
  | |- context [http_post ?w ?n ?rq] =>
      destruct (http_post w n rq) as [ [] | [ [ | ] ] ] eqn:?
  | |- context [py_get ?v _ _] => is_var v; destruct v
  | |- context [py_eq_int ?a ?b] => destruct (py_eq_int a b) eqn:?
  | |- context [truthy ?a] => destruct (truthy a) eqn:?
  end.

(** The outbound requests of any run. *)
Lemma requests_cases (w : world) trackId success status orderId :
  requests settings w trackId success status orderId
  = match int_of_str trackId with
    | inl _ => []
    | inr tid =>
        verify_request settings tid
        :: match http_post w 0 (verify_request settings tid) with
           | inr {| json := inr v |} =>
               [ webhook_request settings trackId success status orderId v
                   (utcnow w 1) ]
           | _ => []
           end
    end.
Proof.
  start. destruct (int_of_str trackId) as [msg | tid]; exec; [reflexivity |].
  f_equal.
  destruct (http_post w 0 _) as [ e | [ [ m | v ] ] ]; exec.
  - destruct e; reflexivity.
  - reflexivity.
  - rewrite create_signature_webhook_data. exec. f_equal.
    repeat (branch; exec); reflexivity.
Qed.

(** X1.  A run issues no request; or one request, to [ZIBAL_VERIFY_URL]
    with the merchant and the integer [trackId] as its body; or that
    request followed by exactly one more, to the ticketing API's webhook
    URL, whose body is a mapping in which "verifyResult" is the body the
    gateway answered to the first request of this run. *)
Theorem requests_shape (w : world) (trackId : string) (success status : Z)
    (orderId : option string) :
  let issued := requests settings w trackId success status orderId in
  let to_gateway (rq : request) (tid : Z) :=
    rq_url rq = ZIBAL_VERIFY_URL settings
    /\ rq_json rq = PDict [ ("merchant", PStr (ZIBAL_MERCHANT_ID settings));
                            ("trackId", PInt tid) ] in
  issued = []
  \/ (exists tid rq,
        int_of_str trackId = inr tid
        /\ issued = [rq]
        /\ to_gateway rq tid)
  \/ (exists tid v rq rq' payload,
        int_of_str trackId = inr tid
        /\ issued = [rq; rq']
        /\ to_gateway rq tid
        /\ http_post w 0 rq = inr {| json := inr v |}
        /\ rq_url rq'
           = TICKETING_API_URL settings ++ "/api/v1/payments/zibal-webhook"
        /\ rq_json rq' = PDict payload
        /\ dict_lookup payload "verifyResult" = Some v).
Proof.
  cbv zeta. rewrite requests_cases.
  destruct (int_of_str trackId) as [msg | tid]; [now left | right].
  destruct (http_post w 0 (verify_request settings tid)) as [e | [[m | v]]] eqn:Hv.
  - left. exists tid, (verify_request settings tid). repeat split.
  - left. exists tid, (verify_request settings tid). repeat split.
  - right.
    exists tid, v, (verify_request settings tid),
      (webhook_request settings trackId success status orderId v (utcnow w 1)),
      (webhook_data trackId success status orderId v (utcnow w 1)).
    repeat split. exact Hv.
Qed.

(** X2.  When [trackId] does not parse as an integer, nothing is sent:
    neither the gateway nor the ticketing API is called. *)
Theorem no_request_without_trackId (w : world) (trackId : string)
    (success status : Z) (orderId : option string) (msg : string) :
  int_of_str trackId = inl msg ->
  requests settings w trackId success status orderId = [].
Proof. intros H. rewrite requests_cases, H. reflexivity. Qed.

(** X3.  When the verify call does not complete with a body that parses
    (it raises, whatever the exception, or the body is not JSON), the
    ticketing API is not called: the verify request is the only one. *)
Theorem no_forward_without_verify (w : world) (trackId : string)
    (success status : Z) (orderId : option string) (tid : Z) :
  int_of_str trackId = inr tid ->
  (forall v, http_post w 0 (verify_request settings tid)
             <> inr {| json := inr v |}) ->
  requests settings w trackId success status orderId
  = [verify_request settings tid].
Proof.
  intros Hint Hv. rewrite requests_cases, Hint.
  destruct (http_post w 0 (verify_request settings tid)) as [e | [[m | v]]] eqn:E;
    try reflexivity.
  now destruct (Hv v).
Qed.

(** X4.  The second request of a run, when there is one, authenticates
    itself: its body is a mapping on which [create_signature] returns
    the very signature its X-Webhook-Signature header carries, so that a
    receiver holding the secret can recompute it from the body alone. *)
Theorem webhook_signature_verifies (w : world) (trackId : string)
    (success status : Z) (orderId : option string) (rq : request) :
  nth_error (requests settings w trackId success status orderId) 1 = Some rq ->
  exists payload signature,
    rq_json rq = PDict payload
    /\ create_signature settings payload = inr signature
    /\ rq_headers rq
       = [ ("Content-Type", "application/json");
           ("X-Webhook-Signature", signature) ].
Proof.
  rewrite requests_cases.
  destruct (int_of_str trackId) as [msg | tid]; [discriminate |].
  destruct (http_post w 0 (verify_request settings tid)) as [e | [[m | v]]];
    try discriminate.
  cbn [nth_error]. intros H. injection H as <-.
  eexists _, _. split; [reflexivity |]. split.
  - apply create_signature_webhook_data.
  - reflexivity.
Qed.

(** X5.  A redirect to the success page is issued only if [trackId]
    parsed, the gateway answered a mapping whose [result] equals 100 and
    the ticketing API answered a mapping whose [success] is truthy. *)
Theorem success_only_if_verified (w : world) (trackId : string)
    (success status : Z) (orderId : option string) (rest : string) :
  handle settings w trackId success status orderId
  = inr {| url := TICKETING_FRONTEND_URL settings ++ "/payment/success" ++ rest;
           status_code := 303 |} ->
  exists tid verify_result webhook_result,
    int_of_str trackId = inr tid
    /\ http_post w 0 (verify_request settings tid)
       = inr {| json := inr (PDict verify_result) |}
    /\ http_post w 1 (webhook_request settings trackId success status orderId
                                      (PDict verify_result) (utcnow w 1))
       = inr {| json := inr (PDict webhook_result) |}
    /\ py_eq_int (dict_get verify_result "result" PNone) 100 = true
    /\ truthy (dict_get webhook_result "success" PNone) = true.
Proof.
  start. repeat (branch; exec);
    intros H; injection H as H; apply append_cancel_l in H;
    try discriminate H.
  eauto 10.
Qed.

(** X6.  Every redirect of the handler stays under the configured
    frontend: its target is the frontend base followed by
    "/payment/success?ref_id=" or by "/payment/failed?error=", whatever
    the inputs and whatever the gateway and the ticketing API answer. *)
Theorem redirect_stays_on_frontend (w : world) (trackId : string)
    (success status : Z) (orderId : option string) :
  exists rest,
    handle settings w trackId success status orderId
    = inr {| url := TICKETING_FRONTEND_URL settings
                    ++ "/payment/success?ref_id=" ++ rest;
             status_code := 303 |}
    \/ handle settings w trackId success status orderId
       = inr {| url := TICKETING_FRONTEND_URL settings
                       ++ "/payment/failed?error=" ++ rest;
                status_code := 303 |}.
Proof.
  start. repeat (branch; exec);
    first [ eexists; right; reflexivity | eexists; left; reflexivity ].
Qed.

(** X7.  The webhook secret reaches nothing but the signature header:
    against an environment whose answers do not depend on request
    headers, the response and every log line are the same under any
    other secret. *)
Theorem secret_only_in_signature (w : world) (trackId : string)
    (success status : Z) (orderId : option string) (secret : string) :
  header_blind w ->
  handle (with_secret settings secret) w trackId success status orderId
  = handle settings w trackId success status orderId
  /\ logged (fst (run w 0 (zibal_callback (with_secret settings secret)
                             trackId success status orderId)))
     = logged (fst (run w 0 (zibal_callback settings
                               trackId success status orderId))).
Proof.
  intros Hblind. start.
  destruct (int_of_str trackId) as [msg | tid]; exec; [split; reflexivity |].
  unfold verify_data, webhook_url.
  cbn [with_secret ZIBAL_MERCHANT_ID ZIBAL_VERIFY_URL TICKETING_API_URL
       TICKETING_FRONTEND_URL].
  destruct (http_post w 0 _) as [ [] | [ [ m | v ] ] ]; exec;
    try (split; reflexivity).
  rewrite !create_signature_webhook_data. exec.
  rewrite (Hblind 1%nat _ _
             (webhook_headers (sign (with_secret settings secret)
                                    trackId success status))
             (webhook_headers (sign settings trackId success status))).
  repeat (branch; exec); split; reflexivity.
Qed.

(** X8.  The handler does not trust the callback's own [success] and
    [status] (nor [orderId]): they go into the webhook payload and the
    log, and against an environment that answers the same whatever it is
    sent, the response does not depend on them. *)
Theorem flags_not_trusted (w : world) (trackId : string)
    (success status success' status' : Z) (orderId orderId' : option string) :
  request_blind w ->
  handle settings w trackId success status orderId
  = handle settings w trackId success' status' orderId'.
Proof.
  intros Hblind. start.
  destruct (int_of_str trackId) as [msg | tid]; exec; [reflexivity |].
  destruct (http_post w 0 _) as [ [] | [ [ m | v ] ] ]; exec; try reflexivity.
  rewrite !create_signature_webhook_data. exec.
  pose (rq0 := verify_request settings tid).
  repeat match goal with
         | |- context [http_post w 1 ?rq] =>
             lazymatch rq with
             | rq0 => fail
             | _ => rewrite (Hblind 1%nat rq rq0)
             end
         end.
  repeat (branch; exec); reflexivity.
Qed.

(** X9.  A network failure is logged once at level ERROR, with the text
    of the exception and no traceback. *)
Theorem network_error_logged (w : world) (trackId : string)
    (success status : Z) (orderId : option string) (tid : Z) (msg : string) :
  int_of_str trackId = inr tid ->
  (http_post w 0 (verify_request settings tid) = inl (RequestError msg)
   \/ exists v,
        http_post w 0 (verify_request settings tid) = inr {| json := inr v |}
        /\ http_post w 1 (webhook_request settings trackId success status orderId
                                          v (utcnow w 1))
           = inl (RequestError msg)) ->
  error_log settings w trackId success status orderId
  = [ "❌ Network error: " ++ msg ].
Proof.
  intros Hint [Hv | [v [Hv Hw]]]; start; rewrite Hint; exec; rewrite Hv; exec.
  - reflexivity.
  - rewrite create_signature_webhook_data. exec. rewrite Hw. exec. reflexivity.
Qed.


(** X14.  [redirect_to_zibal] logs five lines, calls nothing and
    returns a 303 redirect built from [ZIBAL_PAYMENT_URL] followed by the
    token.  The Location header is that text percent-encoded: a token
    made of kept characters is in it as it came, any other byte is
    encoded, and since the percent sign is itself kept, a token and its
    own percent-encoding lead to the same Location. *)
Theorem redirect_to_zibal_target (w : world) (n : nat) (trackId : string) :
  let response (token : string) :=
    {| url := ZIBAL_PAYMENT_URL settings ++ token; status_code := 303 |} in
  run w n (redirect_to_zibal settings trackId)
  = ( [ Logged INFO (str_mul "=" 100);
        Logged INFO "🔀 REDIRECT REQUEST RECEIVED";
        Logged INFO ("📋 TrackId: " ++ trackId);
        Logged INFO ("🎯 Redirecting to: " ++ ZIBAL_PAYMENT_URL settings ++ trackId);
        Logged INFO (str_mul "=" 100) ],
      inr (response trackId) )
  /\ location (response trackId)
     = quote location_safe (ZIBAL_PAYMENT_URL settings)
       ++ quote location_safe trackId
  /\ (forallb (kept location_safe) (list_ascii_of_string trackId) = true ->
      quote location_safe trackId = trackId)
  /\ location (response (quote location_safe trackId))
     = location (response trackId).
Proof.
  cbv zeta. split; [reflexivity | split; [| split]].
  - unfold location. cbn [url]. apply quote_app.
  - apply quote_kept.
  - unfold location. cbn [url]. now rewrite !quote_app, quote_idempotent.
Qed.

End RunProperties.

(** ** These properties at concrete inputs *)

Lemma create_signature_str_only_witness :
  create_signature (rt := Demo.runtime) Demo.settings Scenarios.numeric_payload
  = create_signature (rt := Demo.runtime) Demo.settings Scenarios.textual_payload.
Proof.
  apply (create_signature_str_only (rt := Demo.runtime) Demo.settings
           Scenarios.numeric_payload Scenarios.textual_payload).
  intros key [<- | [<- | [<- | []]]]; reflexivity.
Defined.

Lemma no_request_without_trackId_witness :
  requests (rt := Demo.runtime) Demo.settings Demo.paid_world "12ab" 1 2 None = [].
Proof.
  apply (no_request_without_trackId (rt := Demo.runtime) Demo.settings
           Demo.paid_world "12ab" 1 2 None
           "invalid literal for int() with base 10: '12ab'").
  reflexivity.
Defined.

Lemma no_forward_without_verify_witness :
  requests (rt := Demo.runtime) Demo.settings Scenarios.garbled_gateway_world
    "998877" 1 2 None
  = [verify_request Demo.settings 998877].
Proof.
  apply (no_forward_without_verify (rt := Demo.runtime) Demo.settings
           Scenarios.garbled_gateway_world "998877" 1 2 None 998877).
  - reflexivity.
  - intros v H. discriminate H.
Defined.

Lemma webhook_signature_verifies_witness :
  exists payload signature,
    rq_json (webhook_request Demo.settings "998877" 1 2 None
               (PDict [("result", PInt 100)]) "2024-01-01T00:00:00")
    = PDict payload
    /\ create_signature (rt := Demo.runtime) Demo.settings payload = inr signature
    /\ rq_headers (webhook_request Demo.settings "998877" 1 2 None
                     (PDict [("result", PInt 100)]) "2024-01-01T00:00:00")
       = [ ("Content-Type", "application/json");
           ("X-Webhook-Signature", signature) ].
Proof.
  apply (webhook_signature_verifies (rt := Demo.runtime) Demo.settings
           Demo.paid_world "998877" 1 2 None).
  vm_compute. reflexivity.
Defined.

Lemma success_only_if_verified_witness :
  exists tid verify_result webhook_result,
    int_of_str (PyRuntime := Demo.runtime) "998877" = inr tid
    /\ http_post Demo.paid_world 0 (verify_request Demo.settings tid)
       = inr {| json := inr (PDict verify_result) |}
    /\ http_post Demo.paid_world 1
         (webhook_request Demo.settings "998877" 1 2 None (PDict verify_result)
            (utcnow Demo.paid_world 1))
       = inr {| json := inr (PDict webhook_result) |}
    /\ py_eq_int (dict_get verify_result "result" PNone) 100 = true
    /\ truthy (dict_get webhook_result "success" PNone) = true.
Proof.
  apply (success_only_if_verified (rt := Demo.runtime) Demo.settings
           Demo.paid_world "998877" 1 2 None "?ref_id=R1&reservation_id=RES1").
  vm_compute. reflexivity.
Defined.

Lemma secret_only_in_signature_witness :
  handle (rt := Demo.runtime) (with_secret Demo.settings "another secret")
    Demo.paid_world "998877" 1 2 None
  = handle (rt := Demo.runtime) Demo.settings Demo.paid_world "998877" 1 2 None
  /\ logged (fst (run Demo.paid_world 0
                    (zibal_callback (rt := Demo.runtime)
                       (with_secret Demo.settings "another secret")
                       "998877" 1 2 None)))
     = logged (fst (run Demo.paid_world 0
                      (zibal_callback (rt := Demo.runtime) Demo.settings
                         "998877" 1 2 None))).
Proof.
  apply (secret_only_in_signature (rt := Demo.runtime) Demo.settings
           Demo.paid_world "998877" 1 2 None "another secret").
  intros n target body headers headers' t. reflexivity.
Defined.

Lemma flags_not_trusted_witness :
  handle (rt := Demo.runtime) Demo.settings Demo.paid_world "998877" 1 2 None
  = handle (rt := Demo.runtime) Demo.settings Demo.paid_world "998877" 0 3
      (Some "order-7").
Proof.
  apply (flags_not_trusted (rt := Demo.runtime) Demo.settings Demo.paid_world
           "998877" 1 2 0 3 None (Some "order-7")).
  intros n rq rq'. reflexivity.
Defined.

Lemma network_error_logged_witness :
  error_log (rt := Demo.runtime) Demo.settings
    (Demo.unreachable_api_world (PDict [("result", PInt 100)]))
    "998877" 1 2 None
  = [ "❌ Network error: All connection attempts failed" ].
Proof.
  apply (network_error_logged (rt := Demo.runtime) Demo.settings
           (Demo.unreachable_api_world (PDict [("result", PInt 100)]))
           "998877" 1 2 None 998877 "All connection attempts failed").
  - reflexivity.
  - right. exists (PDict [("result", PInt 100)]). split; reflexivity.
Defined.


Lemma redirect_to_zibal_target_witness :
  snd (run Demo.paid_world 0 (redirect_to_zibal Demo.settings "a b"))
  = inr {| url := "https://gateway.zibal.ir/start/a b"; status_code := 303 |}
  /\ location {| url := "https://gateway.zibal.ir/start/a b"; status_code := 303 |}
     = "https://gateway.zibal.ir/start/a%20b"
  /\ location {| url := "https://gateway.zibal.ir/start/a%20b"; status_code := 303 |}
     = location {| url := "https://gateway.zibal.ir/start/a b"; status_code := 303 |}
  /\ quote location_safe "ABC123" = "ABC123".
Proof.
  destruct (redirect_to_zibal_target Demo.settings Demo.paid_world 0 "a b")
    as [Hrun [Hlocation [_ Hsame]]].
  destruct (redirect_to_zibal_target Demo.settings Demo.paid_world 0 "ABC123")
    as [_ [_ [Hkept _]]].
  split; [| split; [| split]].
  - refine (eq_trans (f_equal snd Hrun) _). reflexivity.
  - refine (eq_trans Hlocation _). reflexivity.
  - exact Hsame.
  - apply Hkept. reflexivity.
Defined.

Lemma requests_shape_witness :
  exists rq rq' payload,
    requests (rt := Demo.runtime) Demo.settings Demo.paid_world "998877" 1 2 None
    = [rq; rq']
    /\ rq_url rq = "https://gateway.zibal.ir/v1/verify"
    /\ rq_url rq' = "https://api.example/api/v1/payments/zibal-webhook"
    /\ rq_json rq' = PDict payload
    /\ dict_lookup payload "verifyResult" = Some (PDict [("result", PInt 100)]).
Proof.
  destruct (requests_shape (rt := Demo.runtime) Demo.settings Demo.paid_world
              "998877" 1 2 None)
    as [ Hnone
       | [ [tid [rq [_ [Hone _]]]]
         | [tid [v [rq [rq' [payload
             [_ [Htwo [[Hurl _] [Hpost [Hurl' [Hjson Hlookup]]]]]]]]]]] ] ].
  - vm_compute in Hnone. discriminate Hnone.
  - vm_compute in Hone. discriminate Hone.
  - exists rq, rq', payload. repeat split; try assumption.
    injection Hpost as <-. exact Hlookup.
Defined.
